(** * Account session store and account API client

    A shallow embedding of [src/features/user/userSlice.js] (the Redux slice
    that tracks the current user, the request status and the last error) and
    of [src/services/userService.js] (the seven calls to the account API),
    followed by the properties of the request / state lifecycle. *)

From Stdlib Require Import ZArith List String Bool Lia.
From Stdlib Require Import DecimalString.
Import ListNotations.
Open Scope string_scope.
Open Scope Z_scope.

Set Warnings "-register-all".

(** ** JavaScript values

    The payloads that travel through the client are JSON bodies, the two
    nullish values and the error object axios rejects with.  An error object
    carries its [message] and, when the server answered, the [response]
    (status code and body).  Numbers are the integers: identifiers and status
    codes are, and a JSON body has no [NaN]. *)

Inductive value : Type :=
| VUndefined
| VNull
| VBool (b : bool)
| VNum (n : Z)
| VStr (s : string)
| VArr (items : list value)
| VObj (fields : list (string * value))
| VError (message : string) (response : option (Z * value)).

(** [ToBoolean]: [undefined], [null], [false], [0] and the empty string are
    falsy, every object (arrays and errors included) is truthy. *)
Definition truthy (v : value) : bool :=
  match v with
  | VUndefined | VNull => false
  | VBool b => b
  | VNum n => negb (n =? 0)
  | VStr s => negb (String.eqb s "")
  | VArr _ | VObj _ | VError _ _ => true
  end.

(** [a || b] *)
Definition js_or (a b : value) : value := if truthy a then a else b.

(** [error.response?.data] *)
Definition response_data (error : value) : value :=
  match error with
  | VError _ (Some (_, data)) => data
  | _ => VUndefined
  end.

(** ** userService.js *)

Module UserService.

Inductive method := GET | POST | PUT.

Record request := { req_method : method; req_url : string; req_body : option value }.

(** What awaiting an axios call gives: a response (of which the code reads
    [response.data]), or a thrown error object, with its message and, when the
    server answered with a non-success status, that response. *)
Inductive axios_result :=
| Response (status_code : Z) (data : value)
| Failure (message : string) (response : option (Z * value)).

(** The [error] bound by [catch (error)]. *)
Definition caught (message : string) (response : option (Z * value)) : value :=
  VError message response.

(** What awaiting one of the service functions gives. *)
Inductive promise :=
| Resolves (v : value)
| Throws (v : value).

Definition default_base_url : string := "http://localhost:8000/api/users".

(** [process.env.REACT_APP_API_BASE_URL || 'http://localhost:8000/api/users'] *)
Definition API_BASE_URL (env : option string) : string :=
  match env with
  | Some url => if String.eqb url "" then default_base_url else url
  | None => default_base_url
  end.

(** [`${id}`] for an identifier that is a safe integer (at most 2^53 - 1 in
    absolute value), of which a template literal prints every digit *)
Definition id_string (id : Z) : string := NilZero.string_of_int (Z.to_int id).

Section Client.

(** The configured environment and the network behind axios. *)
Variable env : option string.
Variable axios : request -> axios_result.

(** The body shared by the seven functions:
    [try { const response = await axios...; return response.data; }
     catch (error) { console.error(...); throw error.response?.data || error; }] *)
Definition call (r : request) : promise :=
  match axios r with
  | Response _ data => Resolves data
  | Failure message response =>
      let error := caught message response in
      Throws (js_or (response_data error) error)
  end.

Definition registerUser (userData : value) : promise :=
  call {| req_method := POST;
          req_url := API_BASE_URL env ++ "/register";
          req_body := Some userData |}.

Definition confirmUserRegistration (data : value) : promise :=
  call {| req_method := POST;
          req_url := API_BASE_URL env ++ "/confirm";
          req_body := Some data |}.

Definition authenticateUser (credentials : value) : promise :=
  call {| req_method := POST;
          req_url := API_BASE_URL env ++ "/authenticate";
          req_body := Some credentials |}.

Definition initiatePasswordReset (email : value) : promise :=
  call {| req_method := POST;
          req_url := API_BASE_URL env ++ "/password-reset/initiate";
          req_body := Some (VObj [("email", email)]) |}.

Definition completePasswordReset (data : value) : promise :=
  call {| req_method := POST;
          req_url := API_BASE_URL env ++ "/password-reset/complete";
          req_body := Some data |}.

Definition getUserById (id : Z) : promise :=
  call {| req_method := GET;
          req_url := API_BASE_URL env ++ "/user/" ++ id_string id;
          req_body := None |}.

Definition updateUser (id : Z) (updateData : value) : promise :=
  call {| req_method := PUT;
          req_url := API_BASE_URL env ++ "/user/" ++ id_string id;
          req_body := Some updateData |}.

(** One invocation of the client: which function, on which arguments. *)
Inductive api_call :=
| CallRegisterUser (userData : value)
| CallConfirmUserRegistration (data : value)
| CallAuthenticateUser (credentials : value)
| CallInitiatePasswordReset (email : value)
| CallCompletePasswordReset (data : value)
| CallGetUserById (id : Z)
| CallUpdateUser (id : Z) (updateData : value).

Definition invoke (c : api_call) : promise :=
  match c with
  | CallRegisterUser userData => registerUser userData
  | CallConfirmUserRegistration data => confirmUserRegistration data
  | CallAuthenticateUser credentials => authenticateUser credentials
  | CallInitiatePasswordReset email => initiatePasswordReset email
  | CallCompletePasswordReset data => completePasswordReset data
  | CallGetUserById id => getUserById id
  | CallUpdateUser id updateData => updateUser id updateData
  end.

(** The request each invocation sends. *)
Definition request_of (c : api_call) : request :=
  match c with
  | CallRegisterUser userData =>
      {| req_method := POST; req_url := API_BASE_URL env ++ "/register";
         req_body := Some userData |}
  | CallConfirmUserRegistration data =>
      {| req_method := POST; req_url := API_BASE_URL env ++ "/confirm";
         req_body := Some data |}
  | CallAuthenticateUser credentials =>
      {| req_method := POST; req_url := API_BASE_URL env ++ "/authenticate";
         req_body := Some credentials |}
  | CallInitiatePasswordReset email =>
      {| req_method := POST;
         req_url := API_BASE_URL env ++ "/password-reset/initiate";
         req_body := Some (VObj [("email", email)]) |}
  | CallCompletePasswordReset data =>
      {| req_method := POST;
         req_url := API_BASE_URL env ++ "/password-reset/complete";
         req_body := Some data |}
  | CallGetUserById id =>
      {| req_method := GET; req_url := API_BASE_URL env ++ "/user/" ++ id_string id;
         req_body := None |}
  | CallUpdateUser id updateData =>
      {| req_method := PUT; req_url := API_BASE_URL env ++ "/user/" ++ id_string id;
         req_body := Some updateData |}
  end.

End Client.

End UserService.

(** ** userSlice.js *)

Module UserSlice.

(** ['idle' | 'loading' | 'succeeded' | 'failed'] *)
Inductive request_status := Idle | Loading | Succeeded | Failed.

Record state := { user : value; status : request_status; error : value }.

Definition initialState : state :=
  {| user := VNull; status := Idle; error := VNull |}.

(** Assignments to the draft state. *)
Definition set_user (v : value) (s : state) : state :=
  {| user := v; status := status s; error := error s |}.
Definition set_status (st : request_status) (s : state) : state :=
  {| user := user s; status := st; error := error s |}.
Definition set_error (v : value) (s : state) : state :=
  {| user := user s; status := status s; error := v |}.

(** The seven asynchronous operations, one thunk each. *)
Inductive operation :=
| Register
| ConfirmRegistration
| Authenticate
| InitiatePasswordReset
| CompletePasswordReset
| GetUserById
| UpdateUser.

Definition all_operations : list operation :=
  [Register; ConfirmRegistration; Authenticate; InitiatePasswordReset;
   CompletePasswordReset; GetUserById; UpdateUser].

(** The type prefix given to [createAsyncThunk]. *)
Definition typePrefix (op : operation) : string :=
  match op with
  | Register => "user/register"
  | ConfirmRegistration => "user/confirmRegistration"
  | Authenticate => "user/authenticate"
  | InitiatePasswordReset => "user/initiatePasswordReset"
  | CompletePasswordReset => "user/completePasswordReset"
  | GetUserById => "user/getUserById"
  | UpdateUser => "user/updateUser"
  end.

(** Actions the slice reducer can be handed: its own two synchronous actions,
    the three lifecycle actions of each thunk, and any action of another
    slice, which it ignores. *)
Inductive action_type :=
| ClearError
| Logout
| Pending (op : operation)
| Fulfilled (op : operation)
| Rejected (op : operation)
| Other (type : string).

(** [action.payload] and [action.error.message]; both are [undefined] on an
    action that does not carry them. *)
Record action := {
  type : action_type;
  payload : value;
  error_message : value
}.

(** *** reducers *)

Definition clearError (s : state) : state :=
  set_error VNull s.

Definition logout (s : state) : state :=
  set_error VNull (set_status Idle (set_user VNull s)).

(** *** extraReducers, in the order of the source *)

Definition register_pending (s : state) : state :=
  set_error VNull (set_status Loading s).
Definition register_fulfilled (s : state) (a : action) : state :=
  set_user (payload a) (set_status Succeeded s).
Definition register_rejected (s : state) (a : action) : state :=
  set_error (js_or (payload a) (error_message a)) (set_status Failed s).

Definition confirmRegistration_pending (s : state) : state :=
  set_error VNull (set_status Loading s).
Definition confirmRegistration_fulfilled (s : state) (a : action) : state :=
  set_user (payload a) (set_status Succeeded s).
Definition confirmRegistration_rejected (s : state) (a : action) : state :=
  set_error (js_or (payload a) (error_message a)) (set_status Failed s).

Definition authenticate_pending (s : state) : state :=
  set_error VNull (set_status Loading s).
Definition authenticate_fulfilled (s : state) (a : action) : state :=
  set_user (payload a) (set_status Succeeded s).
Definition authenticate_rejected (s : state) (a : action) : state :=
  set_error (js_or (payload a) (error_message a)) (set_status Failed s).

Definition initiatePasswordReset_pending (s : state) : state :=
  set_error VNull (set_status Loading s).
Definition initiatePasswordReset_fulfilled (s : state) (a : action) : state :=
  set_status Succeeded s.
Definition initiatePasswordReset_rejected (s : state) (a : action) : state :=
  set_error (js_or (payload a) (error_message a)) (set_status Failed s).

Definition completePasswordReset_pending (s : state) : state :=
  set_error VNull (set_status Loading s).
Definition completePasswordReset_fulfilled (s : state) (a : action) : state :=
  set_user (payload a) (set_status Succeeded s).
Definition completePasswordReset_rejected (s : state) (a : action) : state :=
  set_error (js_or (payload a) (error_message a)) (set_status Failed s).

Definition getUserById_pending (s : state) : state :=
  set_error VNull (set_status Loading s).
Definition getUserById_fulfilled (s : state) (a : action) : state :=
  set_user (payload a) (set_status Succeeded s).
Definition getUserById_rejected (s : state) (a : action) : state :=
  set_error (js_or (payload a) (error_message a)) (set_status Failed s).

Definition updateUser_pending (s : state) : state :=
  set_error VNull (set_status Loading s).
Definition updateUser_fulfilled (s : state) (a : action) : state :=
  set_user (payload a) (set_status Succeeded s).
Definition updateUser_rejected (s : state) (a : action) : state :=
  set_error (js_or (payload a) (error_message a)) (set_status Failed s).

(** [userSlice.reducer]: the case reducer registered for the action's type,
    the state itself when there is none. *)
Definition reducer (s : state) (a : action) : state :=
  match type a with
  | ClearError => clearError s
  | Logout => logout s
  | Pending Register => register_pending s
  | Fulfilled Register => register_fulfilled s a
  | Rejected Register => register_rejected s a
  | Pending ConfirmRegistration => confirmRegistration_pending s
  | Fulfilled ConfirmRegistration => confirmRegistration_fulfilled s a
  | Rejected ConfirmRegistration => confirmRegistration_rejected s a
  | Pending Authenticate => authenticate_pending s
  | Fulfilled Authenticate => authenticate_fulfilled s a
  | Rejected Authenticate => authenticate_rejected s a
  | Pending InitiatePasswordReset => initiatePasswordReset_pending s
  | Fulfilled InitiatePasswordReset => initiatePasswordReset_fulfilled s a
  | Rejected InitiatePasswordReset => initiatePasswordReset_rejected s a
  | Pending CompletePasswordReset => completePasswordReset_pending s
  | Fulfilled CompletePasswordReset => completePasswordReset_fulfilled s a
  | Rejected CompletePasswordReset => completePasswordReset_rejected s a
  | Pending GetUserById => getUserById_pending s
  | Fulfilled GetUserById => getUserById_fulfilled s a
  | Rejected GetUserById => getUserById_rejected s a
  | Pending UpdateUser => updateUser_pending s
  | Fulfilled UpdateUser => updateUser_fulfilled s a
  | Rejected UpdateUser => updateUser_rejected s a
  | Other _ => s
  end.

(** The store after a sequence of dispatched actions. *)
Definition dispatch_all (s : state) (acts : list action) : state :=
  fold_left reducer acts s.

(** States the store can be in: the initial one and whatever a sequence of
    actions leads to from it. *)
Definition reachable (s : state) : Prop :=
  exists acts, s = dispatch_all initialState acts.

(** While the status is ['idle'] or ['loading'] the error is [null]. *)
Definition quiet (s : state) : Prop :=
  status s = Idle \/ status s = Loading -> error s = VNull.

(** *** action creators *)

Definition clearError_action : action :=
  {| type := ClearError; payload := VUndefined; error_message := VUndefined |}.
Definition logout_action : action :=
  {| type := Logout; payload := VUndefined; error_message := VUndefined |}.
Definition pending (op : operation) : action :=
  {| type := Pending op; payload := VUndefined; error_message := VUndefined |}.
Definition fulfilled (op : operation) (p : value) : action :=
  {| type := Fulfilled op; payload := p; error_message := VUndefined |}.
Definition rejected (op : operation) (p : value) (message : value) : action :=
  {| type := Rejected op; payload := p; error_message := message |}.

(** *** thunks *)

(** What a payload creator of the slice ends with: [return response] or
    [return thunkAPI.rejectWithValue(error)]. *)
Inductive creator_result :=
| Return (response : value)
| RejectWithValue (error : value).

(** Every payload creator is
    [try { const response = await userService.f(arg); return response; }
     catch (error) { return thunkAPI.rejectWithValue(error); }] *)
Definition payloadCreator (p : UserService.promise) : creator_result :=
  match p with
  | UserService.Resolves response => Return response
  | UserService.Throws error => RejectWithValue error
  end.

(** The message Redux Toolkit puts in [action.error] of a rejected action made
    with [rejectWithValue]. *)
Definition rejectedWithValue_message : value := VStr "Rejected".

(** [createAsyncThunk]: the thunk dispatches [pending] when it is called and,
    once the payload creator has settled, [fulfilled] with the returned value
    or [rejected] with the value given to [rejectWithValue]. *)
Definition settled (op : operation) (r : creator_result) : action :=
  match r with
  | Return response => fulfilled op response
  | RejectWithValue e => rejected op e rejectedWithValue_message
  end.

Definition createAsyncThunk (op : operation) (r : creator_result) : list action :=
  [pending op; settled op r].

Section Thunks.

Variable env : option string.
Variable axios : UserService.request -> UserService.axios_result.

Definition registerUserThunk (userData : value) : list action :=
  createAsyncThunk Register
    (payloadCreator (UserService.registerUser env axios userData)).

Definition confirmUserRegistrationThunk (data : value) : list action :=
  createAsyncThunk ConfirmRegistration
    (payloadCreator (UserService.confirmUserRegistration env axios data)).

Definition authenticateUserThunk (credentials : value) : list action :=
  createAsyncThunk Authenticate
    (payloadCreator (UserService.authenticateUser env axios credentials)).

Definition initiatePasswordResetThunk (email : value) : list action :=
  createAsyncThunk InitiatePasswordReset
    (payloadCreator (UserService.initiatePasswordReset env axios email)).

Definition completePasswordResetThunk (data : value) : list action :=
  createAsyncThunk CompletePasswordReset
    (payloadCreator (UserService.completePasswordReset env axios data)).

Definition getUserByIdThunk (id : Z) : list action :=
  createAsyncThunk GetUserById
    (payloadCreator (UserService.getUserById env axios id)).

Definition updateUserThunk (id : Z) (updateData : value) : list action :=
  createAsyncThunk UpdateUser
    (payloadCreator (UserService.updateUser env axios id updateData)).

(** The thunk that wraps each client function, and its operation. *)
Definition operation_of (c : UserService.api_call) : operation :=
  match c with
  | UserService.CallRegisterUser _ => Register
  | UserService.CallConfirmUserRegistration _ => ConfirmRegistration
  | UserService.CallAuthenticateUser _ => Authenticate
  | UserService.CallInitiatePasswordReset _ => InitiatePasswordReset
  | UserService.CallCompletePasswordReset _ => CompletePasswordReset
  | UserService.CallGetUserById _ => GetUserById
  | UserService.CallUpdateUser _ _ => UpdateUser
  end.

Definition thunk (c : UserService.api_call) : list action :=
  match c with
  | UserService.CallRegisterUser userData => registerUserThunk userData
  | UserService.CallConfirmUserRegistration data => confirmUserRegistrationThunk data
  | UserService.CallAuthenticateUser credentials => authenticateUserThunk credentials
  | UserService.CallInitiatePasswordReset email => initiatePasswordResetThunk email
  | UserService.CallCompletePasswordReset data => completePasswordResetThunk data
  | UserService.CallGetUserById id => getUserByIdThunk id
  | UserService.CallUpdateUser id updateData => updateUserThunk id updateData
  end.

End Thunks.

End UserSlice.

Import UserService UserSlice.

(** ** The views

    The alert and the two handlers of the form components: LoginForm,
    RegisterUserForm, ConfirmRegistrationForm, PasswordResetInitiate,
    PasswordResetComplete, and the alert of UserProfile;
    [components/common/AlertMessage.jsx]. *)

Module Views.

(** *** Form data: an object literal, as its own properties in order *)

Definition form_data := list (string * value).

(** [obj[name]], [undefined] when the object has no such property *)
Fixpoint get_field (name : string) (fields : form_data) : value :=
  match fields with
  | [] => VUndefined
  | (k, x) :: rest => if String.eqb k name then x else get_field name rest
  end.

(** [{ ...prev, [name]: value }]: the copy of [prev] with [name] set, in place
    when [prev] has it, as a last property when it has not (the names of
    inputs are no array indices, which an object would list first). *)
Fixpoint set_field (name : string) (v : value) (prev : form_data) : form_data :=
  match prev with
  | [] => [(name, v)]
  | (k, x) :: rest =>
      if String.eqb k name then (k, v) :: rest
      else (k, x) :: set_field name v rest
  end.

Definition keys (fields : form_data) : list string := map fst fields.

(** [handleChange] of the forms that keep an object: [e.target] gives the
    name of the input and the text typed in it. *)
Definition handleChange (prev : form_data) (name text : string) : form_data :=
  set_field name (VStr text) prev.

(** [handleChange] of PasswordResetInitiate: [setEmail(e.target.value)] *)
Definition handleChange_email (prev : string) (text : string) : string := text.

(** A form after a series of change events, oldest first. *)
Definition typed (initial : form_data) (events : list (string * string)) : form_data :=
  fold_left (fun prev e => handleChange prev (fst e) (snd e)) events initial.

(** [useState({...})] of each form *)
Definition RegisterUserForm_initial : form_data :=
  [("email", VStr ""); ("name", VStr ""); ("password", VStr "")].
Definition LoginForm_initial : form_data :=
  [("email", VStr ""); ("password", VStr "")].
Definition ConfirmRegistrationForm_initial : form_data :=
  [("email", VStr ""); ("confirmationCode", VStr "")].
Definition PasswordResetComplete_initial : form_data :=
  [("email", VStr ""); ("newPassword", VStr ""); ("confirmationCode", VStr "")].

(** *** The alert *)

(** What [AlertMessage] renders: [<div className=... role="alert">text</div>] *)
Record element := { className : string; role : string; text : string }.

(** [if (!message) return null; return <div className={`alert alert-${type}`} ...] *)
Definition AlertMessage (type message : string) : option element :=
  if String.eqb message "" then None
  else Some {| className := "alert alert-" ++ type; role := "alert"; text := message |}.

Inductive view :=
| RegisterUserForm
| LoginForm
| ConfirmRegistrationForm
| PasswordResetInitiate
| PasswordResetComplete
| UserProfile.

(** The text each view shows while ['loading'] and once ['succeeded']. *)
Definition loading_message (v : view) : string :=
  match v with
  | RegisterUserForm => "Registering user..."
  | LoginForm => "Authenticating..."
  | ConfirmRegistrationForm => "Confirming registration..."
  | PasswordResetInitiate => "Processing password reset initiation..."
  | PasswordResetComplete => "Resetting password..."
  | UserProfile => "Updating profile..."
  end.

Definition succeeded_message (v : view) : string :=
  match v with
  | RegisterUserForm => "User registered successfully!"
  | LoginForm => "Login successful!"
  | ConfirmRegistrationForm => "Registration confirmed successfully!"
  | PasswordResetInitiate => "Password reset email sent!"
  | PasswordResetComplete => "Password reset successfully!"
  | UserProfile => "Profile updated successfully!"
  end.

Section Rendering.

(** The [name] of the error objects axios throws, which [toString] prints,
    and the decimal notation the engine gives a number. *)
Variable error_name : string.
Variable number_to_string : Z -> string.

(** Whether an object has an own property of that name. *)
Definition has_own (name : string) (fields : list (string * value)) : bool :=
  existsb (fun kv => String.eqb (fst kv) name) fields.

(** What converting a value to a string gives: the string, or a TypeError. *)
Inductive printed :=
| Text (s : string)
| TypeError.

(** [`${v}`]: the string a template literal makes of a value.  A plain object
    prints as ["[object Object]"] through the [toString] it inherits; with an
    own property [toString], which in a JSON body is no function, the
    conversion finds nothing to call that gives a primitive and throws.  An
    array prints as its elements joined by commas, [null] and [undefined]
    elements as nothing; an error as its name and message. *)
Fixpoint to_string (v : value) : printed :=
  match v with
  | VUndefined => Text "undefined"
  | VNull => Text "null"
  | VBool true => Text "true"
  | VBool false => Text "false"
  | VNum n => Text (number_to_string n)
  | VStr s => Text s
  | VArr items =>
      (fix join (l : list value) : printed :=
         match l with
         | [] => Text ""
         | x :: rest =>
             match match x with
                   | VUndefined | VNull => Text ""
                   | _ => to_string x
                   end with
             | TypeError => TypeError
             | Text first =>
                 match rest with
                 | [] => Text first
                 | _ :: _ =>
                     match join rest with
                     | TypeError => TypeError
                     | Text others => Text (first ++ "," ++ others)
                     end
                 end
             end
         end) items
  | VObj fields =>
      if has_own "toString" fields then TypeError else Text "[object Object]"
  | VError message _ =>
      if String.eqb error_name "" then Text message
      else if String.eqb message "" then Text error_name
      else Text (error_name ++ ": " ++ message)
  end.

(** [alertType] and [alertMessage], from [status] and [error] of the slice;
    nothing when the template literal of the ['failed'] case throws. *)
Definition alert_of (v : view) (s : state) : option (string * string) :=
  match status s with
  | Loading => Some ("info", loading_message v)
  | Failed =>
      match to_string (error s) with
      | Text printed_error => Some ("danger", "Error: " ++ printed_error)
      | TypeError => None
      end
  | Succeeded => Some ("success", succeeded_message v)
  | Idle => Some ("", "")
  end.

(** What rendering the alert of a view gives: the element (or nothing) that
    [<AlertMessage type={alertType} message={alertMessage} />] returns, or the
    TypeError thrown on the way. *)
Inductive rendered :=
| Renders (shown : option element)
| RenderThrows.

Definition alert (v : view) (s : state) : rendered :=
  match alert_of v s with
  | Some (alertType, alertMessage) => Renders (AlertMessage alertType alertMessage)
  | None => RenderThrows
  end.

End Rendering.

(** *** Submitting *)

Section Submitting.

Variable env : option string.
Variable axios : request -> axios_result.

(** [handleSubmit]: [dispatch(clearError()); dispatch(thunk(formData));], the
    actions the store gets when nothing else is dispatched meanwhile. *)
Definition RegisterUserForm_handleSubmit (formData : form_data) : list action :=
  clearError_action :: registerUserThunk env axios (VObj formData).

Definition LoginForm_handleSubmit (credentials : form_data) : list action :=
  clearError_action :: authenticateUserThunk env axios (VObj credentials).

Definition ConfirmRegistrationForm_handleSubmit (formData : form_data) : list action :=
  clearError_action :: confirmUserRegistrationThunk env axios (VObj formData).

Definition PasswordResetInitiate_handleSubmit (email : string) : list action :=
  clearError_action :: initiatePasswordResetThunk env axios (VStr email).

Definition PasswordResetComplete_handleSubmit (formData : form_data) : list action :=
  clearError_action :: completePasswordResetThunk env axios (VObj formData).

(** One submission: which form, holding what. *)
Inductive submission :=
| SubmitRegisterUserForm (formData : form_data)
| SubmitLoginForm (credentials : form_data)
| SubmitConfirmRegistrationForm (formData : form_data)
| SubmitPasswordResetInitiate (email : string)
| SubmitPasswordResetComplete (formData : form_data).

Definition handleSubmit (sub : submission) : list action :=
  match sub with
  | SubmitRegisterUserForm formData => RegisterUserForm_handleSubmit formData
  | SubmitLoginForm credentials => LoginForm_handleSubmit credentials
  | SubmitConfirmRegistrationForm formData => ConfirmRegistrationForm_handleSubmit formData
  | SubmitPasswordResetInitiate email => PasswordResetInitiate_handleSubmit email
  | SubmitPasswordResetComplete formData => PasswordResetComplete_handleSubmit formData
  end.

Definition view_of (sub : submission) : view :=
  match sub with
  | SubmitRegisterUserForm _ => RegisterUserForm
  | SubmitLoginForm _ => LoginForm
  | SubmitConfirmRegistrationForm _ => ConfirmRegistrationForm
  | SubmitPasswordResetInitiate _ => PasswordResetInitiate
  | SubmitPasswordResetComplete _ => PasswordResetComplete
  end.

(** The client call a submission ends in. *)
Definition call_of (sub : submission) : api_call :=
  match sub with
  | SubmitRegisterUserForm formData => CallRegisterUser (VObj formData)
  | SubmitLoginForm credentials => CallAuthenticateUser (VObj credentials)
  | SubmitConfirmRegistrationForm formData => CallConfirmUserRegistration (VObj formData)
  | SubmitPasswordResetInitiate email => CallInitiatePasswordReset (VStr email)
  | SubmitPasswordResetComplete formData => CallCompletePasswordReset (VObj formData)
  end.

End Submitting.

End Views.

(** ** Sequences of actions *)

(** Actions whose case reducer assigns [state.user]: [logout] and the
    [fulfilled] action of the six operations that store their payload. *)
Definition writes_user (a : action) : bool :=
  match type a with
  | Logout => true
  | Fulfilled InitiatePasswordReset => false
  | Fulfilled _ => true
  | _ => false
  end.

(** The error is [null] unless the status is ['failed']. *)
Definition settled_invariant (s : state) : Prop :=
  error s <> VNull -> status s = Failed.


(** What a user does, one thing after the other, each operation run to its
    end before the next starts.  A call comes with the network as it answers
    at that moment: the same request may fail once and succeed later. *)
Inductive user_step :=
| StepCall (axios : request -> axios_result) (c : api_call)
| StepClearError
| StepLogout.

Definition step_actions (env : option string) (st : user_step) : list action :=
  match st with
  | StepCall axios c => thunk env axios c
  | StepClearError => [clearError_action]
  | StepLogout => [logout_action]
  end.

Definition session_actions (env : option string) (steps : list user_step)
  : list action :=
  List.concat (map (step_actions env) steps).

Import Views.

(** * Properties *)

(** ** Case reducers, by kind of action *)

Lemma reducer_pending (op : operation) (s : state) (p m : value) :
  reducer s {| type := Pending op; payload := p; error_message := m |}
  = {| user := user s; status := Loading; error := VNull |}.
Proof. destruct op; reflexivity. Qed.

Lemma reducer_rejected (op : operation) (s : state) (p m : value) :
  reducer s {| type := Rejected op; payload := p; error_message := m |}
  = {| user := user s; status := Failed; error := js_or p m |}.
Proof. destruct op; reflexivity. Qed.

Lemma reducer_fulfilled (op : operation) (s : state) (p m : value) :
  reducer s {| type := Fulfilled op; payload := p; error_message := m |}
  = {| user := match op with InitiatePasswordReset => user s | _ => p end;
       status := Succeeded;
       error := error s |}.
Proof. destruct op; reflexivity. Qed.

Lemma reducer_clearError (s : state) (p m : value) :
  reducer s {| type := ClearError; payload := p; error_message := m |}
  = {| user := user s; status := status s; error := VNull |}.
Proof. reflexivity. Qed.

Lemma state_eta (s : state) :
  {| user := user s; status := status s; error := error s |} = s.
Proof. destruct s; reflexivity. Qed.

(** ** The client and the thunks, as one call each *)

Lemma invoke_call env axios (c : api_call) :
  invoke env axios c = call axios (request_of env c).
Proof. destruct c; reflexivity. Qed.

Lemma thunk_actions env axios (c : api_call) :
  thunk env axios c
  = createAsyncThunk (operation_of c) (payloadCreator (invoke env axios c)).
Proof. destruct c; reflexivity. Qed.

(** The error object axios throws is truthy, and so is whatever the client
    throws in its place. *)
Lemma thrown_truthy env axios (c : api_call) (v : value) :
  invoke env axios c = Throws v -> truthy v = true.
Proof.
  rewrite invoke_call. unfold call.
  destruct (axios (request_of env c)) as [code data | message response].
  - discriminate.
  - unfold js_or.
    destruct (truthy (response_data (caught message response))) eqn:E;
      intros [= <-]; [exact E | reflexivity].
Qed.

(** ** Where the error can be set *)

Lemma quiet_initial : quiet initialState.
Proof. intros _. reflexivity. Qed.

Lemma quiet_step (s : state) (a : action) : quiet s -> quiet (reducer s a).
Proof.
  intros Hs. destruct a as [t p m]. destruct t as [ | | op | op | op | other].
  - intros _. reflexivity.
  - intros _. reflexivity.
  - rewrite reducer_pending. intros _. reflexivity.
  - rewrite reducer_fulfilled. intros [H | H]; discriminate H.
  - rewrite reducer_rejected. intros [H | H]; discriminate H.
  - exact Hs.
Qed.

Lemma quiet_dispatch_all (acts : list action) (s : state) :
  quiet s -> quiet (dispatch_all s acts).
Proof.
  revert s. induction acts as [ | a acts IH]; intros s Hs.
  - exact Hs.
  - simpl. apply IH. apply quiet_step. exact Hs.
Qed.

Lemma reachable_quiet (s : state) : reachable s -> quiet s.
Proof.
  intros [acts ->]. apply quiet_dispatch_all. exact quiet_initial.
Qed.

Lemma reachable_step (s : state) (a : action) :
  reachable s -> reachable (reducer s a).
Proof.
  intros [acts ->]. exists (acts ++ [a])%list.
  unfold dispatch_all. rewrite fold_left_app. reflexivity.
Qed.

(** ** The store's transitions *)

(** C4. For each of the seven operations and every state, the thunk
    dispatches its [pending] action first, before the outcome of the call, and
    that action sets the status to ['loading'], sets the error to [null] and
    leaves the user as it was. *)
Theorem pending_sets_loading :
  (forall (op : operation) (s : state) (p m : value),
      reducer s {| type := Pending op; payload := p; error_message := m |}
      = {| user := user s; status := Loading; error := VNull |})
  /\ (forall env axios (c : api_call) (s : state),
         exists outcome : action,
           thunk env axios c = [pending (operation_of c); outcome]
           /\ type outcome <> Pending (operation_of c)
           /\ status (reducer s (pending (operation_of c))) = Loading
           /\ error (reducer s (pending (operation_of c))) = VNull
           /\ user (reducer s (pending (operation_of c))) = user s).
Proof.
  split.
  - exact reducer_pending.
  - intros env axios c s. rewrite thunk_actions. unfold createAsyncThunk.
    exists (settled (operation_of c) (payloadCreator (invoke env axios c))).
    unfold pending. rewrite reducer_pending. simpl.
    repeat split.
    destruct (payloadCreator (invoke env axios c)); simpl; discriminate.
Qed.

(** C3. For register, confirm, authenticate, complete-reset, get-by-id and
    update, the [fulfilled] action with payload [p] sets the status to
    ['succeeded'] and the user to exactly [p]: nothing of the previous user is
    kept. *)
Theorem fulfilled_replaces_user (op : operation) (s : state) (p m : value) :
  op <> InitiatePasswordReset ->
  let s' := reducer s {| type := Fulfilled op; payload := p; error_message := m |} in
  status s' = Succeeded /\ user s' = p
  /\ s' = {| user := p; status := Succeeded; error := error s |}.
Proof.
  intros Hop s'. subst s'. rewrite reducer_fulfilled.
  destruct op; try (exfalso; apply Hop; reflexivity); simpl; repeat split.
Qed.

Lemma fulfilled_replaces_user_witness :
  Authenticate <> InitiatePasswordReset
  /\ user (reducer {| user := VObj [("id", VNum 1); ("name", VStr "Old Name")];
                      status := Loading; error := VNull |}
                   (fulfilled Authenticate (VObj [("id", VNum 2)])))
     = VObj [("id", VNum 2)].
Proof.
  split.
  - discriminate.
  - apply (fulfilled_replaces_user Authenticate
             {| user := VObj [("id", VNum 1); ("name", VStr "Old Name")];
                status := Loading; error := VNull |}
             (VObj [("id", VNum 2)]) VUndefined).
    discriminate.
Defined.

(** C7. The [fulfilled] action of initiatePasswordReset leaves the user (and
    the error) as they were, whatever its payload: only the status changes,
    to ['succeeded']. *)
Theorem initiatePasswordReset_fulfilled_keeps_user (s : state) (p m : value) :
  reducer s {| type := Fulfilled InitiatePasswordReset; payload := p;
               error_message := m |}
  = {| user := user s; status := Succeeded; error := error s |}.
Proof. reflexivity. Qed.

(** C8. From every state, [logout] gives the initial state: no user, status
    ['idle'], no error. *)
Theorem logout_resets (s : state) (p m : value) :
  reducer s {| type := Logout; payload := p; error_message := m |} = initialState
  /\ initialState = {| user := VNull; status := Idle; error := VNull |}.
Proof. split; reflexivity. Qed.

(** C9. For each of the seven operations the [fulfilled] action leaves the
    error exactly as it was: it writes the status and, for the six operations
    that store the payload, the user.  The error is set to [null] by the
    [pending] actions, by [clearError] and by [logout], while the [rejected]
    action a thunk dispatches never leaves it [null].  So a [fulfilled] action
    that follows a [rejected] one with no [pending] in between keeps the error
    of the failure. *)
Theorem fulfilled_keeps_error :
  (forall (op : operation) (s : state) (p m : value),
      error (reducer s {| type := Fulfilled op; payload := p; error_message := m |})
      = error s)
  /\ (forall (op : operation) (s : state) (p m : value),
         reducer s {| type := Fulfilled op; payload := p; error_message := m |}
         = set_status Succeeded s
         \/ reducer s {| type := Fulfilled op; payload := p; error_message := m |}
            = set_user p (set_status Succeeded s))
  /\ (forall (s : state) (op : operation),
         error (reducer s (pending op)) = VNull
         /\ error (reducer s clearError_action) = VNull
         /\ error (reducer s logout_action) = VNull)
  /\ (forall (s : state) (op : operation) (e : value),
         error (reducer s (settled op (RejectWithValue e))) <> VNull)
  /\ (forall (op1 op2 : operation) (s : state) (e m p : value),
         let failed := reducer s (rejected op1 e m) in
         let s' := dispatch_all s [rejected op1 e m; fulfilled op2 p] in
         status failed = Failed
         /\ status s' = Succeeded
         /\ error s' = error failed
         /\ error s' = (if truthy e then e else m)).
Proof.
  repeat split.
  - intros op s p m. rewrite reducer_fulfilled. reflexivity.
  - intros op s p m. destruct op; (left; reflexivity) || (right; reflexivity).
  - unfold pending. rewrite reducer_pending. reflexivity.
  - intros s op e. unfold settled, rejected. rewrite reducer_rejected.
    unfold js_or, rejectedWithValue_message. simpl.
    destruct e as [ | | b | n | str | items | fields | msg resp]; simpl;
      try discriminate.
    + destruct b; discriminate.
    + destruct (n =? 0); discriminate.
    + destruct (String.eqb str ""); discriminate.
  - unfold rejected. rewrite reducer_rejected. reflexivity.
  - unfold dispatch_all, rejected, fulfilled. simpl.
    rewrite reducer_rejected, reducer_fulfilled. reflexivity.
  - unfold dispatch_all, rejected, fulfilled. simpl.
    rewrite reducer_rejected, reducer_fulfilled. reflexivity.
  - unfold dispatch_all, rejected, fulfilled. simpl.
    rewrite reducer_rejected, reducer_fulfilled. reflexivity.
Qed.

(** ** The error and the status *)

(** C1, as stated, fails: two operations are in flight, the first one fails,
    the second one succeeds; the store ends with status ['succeeded'] and the
    error of the first. *)
Lemma error_only_when_failed_counterexample :
  let e := VObj [("message", VStr "invalid credentials")] in
  let s := dispatch_all initialState
             [pending Authenticate; pending GetUserById;
              rejected Authenticate e rejectedWithValue_message;
              fulfilled GetUserById (VObj [("id", VNum 1)])] in
  reachable s /\ error s = e /\ error s <> VNull /\ status s = Succeeded
  /\ status s <> Failed.
Proof.
  intros e s. split.
  - eexists. reflexivity.
  - repeat split; discriminate.
Qed.

(** C1, amended. In every reachable state the error is non-empty only when
    the status is ['failed'] or ['succeeded']: while the status is ['idle'] or
    ['loading'] the error is [null]. *)
Theorem error_only_when_failed_or_succeeded (s : state) :
  reachable s -> error s <> VNull -> status s = Failed \/ status s = Succeeded.
Proof.
  intros Hr He. pose proof (reachable_quiet s Hr) as Hq. unfold quiet in Hq.
  destruct (status s).
  - exfalso. apply He, Hq. left. reflexivity.
  - exfalso. apply He, Hq. right. reflexivity.
  - right. reflexivity.
  - left. reflexivity.
Qed.

Lemma error_only_when_failed_or_succeeded_witness :
  let s := dispatch_all initialState
             [pending Register; rejected Register (VStr "taken") (VStr "Rejected")] in
  status s = Failed \/ status s = Succeeded.
Proof.
  intros s.
  apply (error_only_when_failed_or_succeeded s).
  - exists [pending Register; rejected Register (VStr "taken") (VStr "Rejected")].
    reflexivity.
  - simpl. discriminate.
Defined.

(** C6, as stated, fails: in the reachable state of the counterexample to C1
    the status is not ['failed'], yet [clearError] changes the state, for
    it drops the error left by the earlier failure. *)
Lemma clearError_changes_succeeded_state :
  let e := VObj [("message", VStr "invalid credentials")] in
  let s := dispatch_all initialState
             [pending Authenticate; pending GetUserById;
              rejected Authenticate e rejectedWithValue_message;
              fulfilled GetUserById (VObj [("id", VNum 1)])] in
  reachable s /\ status s <> Failed /\ error s <> VNull
  /\ reducer s clearError_action <> s.
Proof.
  intros e s. split.
  - eexists. reflexivity.
  - repeat split; discriminate.
Qed.

(** C6, amended. From every state, [clearError] sets the error to [null] and
    leaves the status and the user as they were; when the error is already
    [null], as it is in every reachable state with status ['idle'] or
    ['loading'], [clearError] leaves the state unchanged. *)
Theorem clearError_frame (s : state) (p m : value) :
  let s' := reducer s {| type := ClearError; payload := p; error_message := m |} in
  error s' = VNull /\ status s' = status s /\ user s' = user s
  /\ (error s = VNull -> s' = s)
  /\ (reachable s -> status s = Idle \/ status s = Loading -> s' = s).
Proof.
  intros s'. subst s'. rewrite reducer_clearError. simpl.
  assert (Hsame : error s = VNull ->
                  {| user := user s; status := status s; error := VNull |} = s).
  { intros He. rewrite <- He. apply state_eta. }
  repeat split.
  - exact Hsame.
  - intros Hr Hst. apply Hsame. apply (reachable_quiet s Hr). exact Hst.
Qed.

Lemma clearError_frame_witness :
  let s := dispatch_all initialState [pending Authenticate] in
  reducer s clearError_action = s.
Proof.
  intros s.
  destruct (clearError_frame s VUndefined VUndefined) as (_ & _ & _ & _ & H).
  apply H.
  - exists [pending Authenticate]. reflexivity.
  - right. reflexivity.
Defined.

(** ** Failures: the client *)

(** C5, as stated, fails: a failure response whose body is [0], or the empty
    string, carries a body, yet the client throws the raw error and not that
    body. *)
Lemma client_falsy_body_counterexample :
  let axios0 := fun _ : request =>
                  Failure "Request failed with status code 500" (Some (500, VNum 0)) in
  let axios1 := fun _ : request =>
                  Failure "Request failed with status code 500" (Some (500, VStr "")) in
  let raw0 := VError "Request failed with status code 500" (Some (500, VNum 0)) in
  let raw1 := VError "Request failed with status code 500" (Some (500, VStr "")) in
  response_data raw0 = VNum 0
  /\ registerUser None axios0 VNull = Throws raw0
  /\ registerUser None axios0 VNull <> Throws (VNum 0)
  /\ response_data raw1 = VStr ""
  /\ getUserById None axios1 7 = Throws raw1
  /\ getUserById None axios1 7 <> Throws (VStr "").
Proof.
  cbv zeta. repeat split; discriminate.
Qed.

(** C5, amended. Each of the seven client functions sends its one request
    and, on a response, returns the response body unchanged; on a failure it
    throws the body of the failure response when that body is truthy (as every
    object is) and the raw error otherwise, that is with no response, no body
    or a falsy body.  Either way the call settles, as a returned value or as a
    thrown one. *)
Theorem client_outcome env axios (c : api_call) :
  invoke env axios c
  = match axios (request_of env c) with
    | Response _ data => Resolves data
    | Failure message None => Throws (VError message None)
    | Failure message (Some (code, body)) =>
        if truthy body then Throws body
        else Throws (VError message (Some (code, body)))
    end
  /\ (forall message code fields,
         axios (request_of env c) = Failure message (Some (code, VObj fields)) ->
         invoke env axios c = Throws (VObj fields))
  /\ (exists v, invoke env axios c = Resolves v \/ invoke env axios c = Throws v).
Proof.
  rewrite invoke_call. unfold call, js_or, caught.
  destruct (axios (request_of env c)) as [code data | message [[code body] | ]];
    simpl.
  - repeat split; try discriminate. exists data. left. reflexivity.
  - destruct (truthy body) eqn:E.
    + repeat split.
      * intros message' code' fields [= _ _ ->]. reflexivity.
      * exists body. right. reflexivity.
    + repeat split.
      * intros message' code' fields [= _ _ ->]. discriminate E.
      * eexists. right. reflexivity.
  - repeat split; try discriminate. eexists. right. reflexivity.
Qed.

Lemma client_outcome_witness :
  authenticateUser None
    (fun _ => Failure "Request failed with status code 401"
                (Some (401, VObj [("message", VStr "invalid credentials")])))
    (VObj [("email", VStr "a@b.com"); ("password", VStr "pw")])
  = Throws (VObj [("message", VStr "invalid credentials")]).
Proof.
  destruct (client_outcome None
              (fun _ => Failure "Request failed with status code 401"
                          (Some (401, VObj [("message", VStr "invalid credentials")])))
              (CallAuthenticateUser
                 (VObj [("email", VStr "a@b.com"); ("password", VStr "pw")])))
    as (_ & H & _).
  apply (H "Request failed with status code 401" 401
           [("message", VStr "invalid credentials")]).
  reflexivity.
Defined.

(** ** Failures: the store *)

(** C2. For each of the seven operations, the [rejected] action sets the
    status to ['failed'], leaves the user as it was, and sets the error to the
    value the action carries, or to the generic message [action.error.message]
    when it carries none.  The value carried by the [rejected] action of a
    thunk is what the client function threw, which is truthy: applied in any
    state, that action leaves exactly the thrown value as the error.  A failed
    authenticate whose response body is [{message: "invalid credentials"}]
    leaves exactly that object as the error, and the user untouched. *)
Theorem rejected_sets_failed_and_error :
  (forall (op : operation) (s : state) (p m : value),
      reducer s {| type := Rejected op; payload := p; error_message := m |}
      = {| user := user s; status := Failed;
           error := if truthy p then p else m |})
  /\ (forall (op : operation) (s : state) (m : value),
         error (reducer s {| type := Rejected op; payload := VUndefined;
                             error_message := m |}) = m)
  /\ (forall env axios (c : api_call) (s : state) (v : value),
         invoke env axios c = Throws v ->
         settled (operation_of c) (payloadCreator (invoke env axios c))
         = rejected (operation_of c) v rejectedWithValue_message
         /\ reducer s (settled (operation_of c) (payloadCreator (invoke env axios c)))
            = {| user := user s; status := Failed; error := v |}
         /\ dispatch_all s (thunk env axios c)
            = {| user := user s; status := Failed; error := v |})
  /\ (forall env (s : state) (credentials : value),
         dispatch_all s
           (authenticateUserThunk env
              (fun _ => Failure "Request failed with status code 401"
                          (Some (401, VObj [("message", VStr "invalid credentials")])))
              credentials)
         = {| user := user s; status := Failed;
              error := VObj [("message", VStr "invalid credentials")] |}).
Proof.
  split; [ | split; [ | split]].
  - intros op s p m. rewrite reducer_rejected. reflexivity.
  - intros op s m. rewrite reducer_rejected. reflexivity.
  - intros env axios c s v Hv. pose proof (thrown_truthy env axios c v Hv) as Ht.
    rewrite thunk_actions, Hv. unfold createAsyncThunk, dispatch_all. simpl.
    unfold pending, rejected. rewrite reducer_pending, !reducer_rejected.
    unfold js_or. rewrite Ht. repeat split.
  - intros env s credentials. reflexivity.
Qed.

Lemma rejected_sets_failed_and_error_witness :
  dispatch_all {| user := VObj [("id", VNum 1)]; status := Idle; error := VNull |}
    (thunk None (fun _ => Failure "Network Error" None) (CallGetUserById 1))
  = {| user := VObj [("id", VNum 1)]; status := Failed;
       error := VError "Network Error" None |}.
Proof.
  destruct rejected_sets_failed_and_error as (_ & _ & H & _).
  apply (H None (fun _ => Failure "Network Error" None) (CallGetUserById 1)
           {| user := VObj [("id", VNum 1)]; status := Idle; error := VNull |}
           (VError "Network Error" None)).
  reflexivity.
Defined.

(** C10. Normalization goes by truthiness.  When the body of a failure
    response is falsy (the empty string, [0], [null], ...), every client
    function throws the raw error object and not that body; and when the value
    a [rejected] action carries is falsy, not only when it is missing, the
    store takes the generic message as the error. *)
Theorem normalization_by_truthiness (v : value) :
  truthy v = false ->
  (forall env axios (c : api_call) message code,
      axios (request_of env c) = Failure message (Some (code, v)) ->
      invoke env axios c = Throws (VError message (Some (code, v))))
  /\ (forall (op : operation) (s : state) (m : value),
         error (reducer s {| type := Rejected op; payload := v; error_message := m |})
         = m).
Proof.
  intros Hv. split.
  - intros env axios c message code Hax.
    rewrite invoke_call. unfold call. rewrite Hax.
    unfold js_or, caught. simpl. rewrite Hv. reflexivity.
  - intros op s m. rewrite reducer_rejected. unfold js_or. rewrite Hv. reflexivity.
Qed.

Lemma normalization_by_truthiness_witness :
  (truthy (VStr "") = false /\ truthy (VNum 0) = false /\ truthy VNull = false)
  /\ updateUser None (fun _ => Failure "Request failed with status code 500"
                                 (Some (500, VStr "")))
       3 (VObj [("name", VStr "New Name")])
     = Throws (VError "Request failed with status code 500" (Some (500, VStr "")))
  /\ error (reducer initialState (rejected UpdateUser VNull (VStr "Rejected")))
     = VStr "Rejected".
Proof.
  split; [ repeat split | split ].
  - destruct (normalization_by_truthiness (VStr "") eq_refl) as [H _].
    apply (H None (fun _ => Failure "Request failed with status code 500"
                              (Some (500, VStr "")))
             (CallUpdateUser 3 (VObj [("name", VStr "New Name")]))
             "Request failed with status code 500" 500).
    reflexivity.
  - destruct (normalization_by_truthiness VNull eq_refl) as [_ H].
    apply (H UpdateUser initialState (VStr "Rejected")).
Defined.

(** * Further properties *)

(** ** The requests of the client *)





(** ** Operations run to their end *)

Lemma dispatch_all_app (s : state) (l1 l2 : list action) :
  dispatch_all s (l1 ++ l2)%list = dispatch_all (dispatch_all s l1) l2.
Proof. unfold dispatch_all. apply fold_left_app. Qed.

Lemma run_thunk env axios (c : api_call) (s : state) :
  dispatch_all s (thunk env axios c)
  = match axios (request_of env c) with
    | Response _ data =>
        {| user := match operation_of c with
                   | InitiatePasswordReset => user s
                   | _ => data
                   end;
           status := Succeeded; error := VNull |}
    | Failure message None =>
        {| user := user s; status := Failed; error := VError message None |}
    | Failure message (Some (code, body)) =>
        {| user := user s; status := Failed;
           error := if truthy body then body
                    else VError message (Some (code, body)) |}
    end.
Proof.
  rewrite thunk_actions, invoke_call. unfold call, createAsyncThunk, dispatch_all.
  simpl. unfold pending. rewrite reducer_pending.
  destruct (axios (request_of env c)) as [code data | message [[code body] | ]];
    simpl.
  - unfold fulfilled. rewrite reducer_fulfilled. reflexivity.
  - unfold rejected. rewrite reducer_rejected. unfold js_or, caught. simpl.
    destruct (truthy body) eqn:E; simpl; rewrite ?E; reflexivity.
  - unfold rejected. rewrite reducer_rejected. reflexivity.
Qed.

(** X3. A thunk run to its end, with no other action in between, leaves a
    state that depends only on the user before and on what the one request
    gave: on a response, status ['succeeded'], no error, and the response body
    as the user (the user as before for initiatePasswordReset); on a failure,
    status ['failed'], the user as before, and as the error the body of the
    failure response when it is truthy, the error object otherwise. *)
Theorem thunk_run env axios (c : api_call) (s : state) :
  dispatch_all s (thunk env axios c)
  = match axios (request_of env c) with
    | Response _ data =>
        {| user := match operation_of c with
                   | InitiatePasswordReset => user s
                   | _ => data
                   end;
           status := Succeeded; error := VNull |}
    | Failure message None =>
        {| user := user s; status := Failed; error := VError message None |}
    | Failure message (Some (code, body)) =>
        {| user := user s; status := Failed;
           error := if truthy body then body
                    else VError message (Some (code, body)) |}
    end.
Proof. exact (run_thunk env axios c s). Qed.

(** ** Operations one after the other *)

Lemma settled_invariant_initial : settled_invariant initialState.
Proof. intros H. exfalso. apply H. reflexivity. Qed.

Lemma settled_invariant_null (s : state) : error s = VNull -> settled_invariant s.
Proof. intros E H. exfalso. apply H. exact E. Qed.

Lemma settled_invariant_failed (s : state) : status s = Failed -> settled_invariant s.
Proof. intros E _. exact E. Qed.

Lemma step_actions_prefix env (st : user_step) (s : state) (pre rest : list action) :
  settled_invariant s ->
  step_actions env st = (pre ++ rest)%list ->
  settled_invariant (dispatch_all s pre).
Proof.
  intros Hs Heq. destruct st as [axios c | | ]; simpl in Heq.
  - rewrite thunk_actions in Heq. unfold createAsyncThunk in Heq.
    destruct pre as [ | a1 [ | a2 [ | a3 pre]]]; simpl in Heq.
    + exact Hs.
    + injection Heq as <- _. unfold dispatch_all, pending. simpl.
      rewrite reducer_pending. apply settled_invariant_null. reflexivity.
    + injection Heq as <- <- _. unfold dispatch_all, pending. simpl.
      rewrite reducer_pending.
      destruct (payloadCreator (invoke env axios c)); simpl.
      * unfold fulfilled. rewrite reducer_fulfilled.
        apply settled_invariant_null. reflexivity.
      * unfold rejected. rewrite reducer_rejected.
        apply settled_invariant_failed. reflexivity.
    + discriminate Heq.
  - destruct pre as [ | a1 [ | a2 pre]]; simpl in Heq.
    + exact Hs.
    + injection Heq as <- _. apply settled_invariant_null. reflexivity.
    + discriminate Heq.
  - destruct pre as [ | a1 [ | a2 pre]]; simpl in Heq.
    + exact Hs.
    + injection Heq as <- _. apply settled_invariant_null. reflexivity.
    + discriminate Heq.
Qed.

Lemma session_prefix env (steps : list user_step) :
  forall (s : state) (pre post : list action),
    settled_invariant s ->
    session_actions env steps = (pre ++ post)%list ->
    settled_invariant (dispatch_all s pre).
Proof.
  induction steps as [ | st steps IH]; intros s pre post Hs Heq.
  - unfold session_actions in Heq. simpl in Heq.
    symmetry in Heq. apply app_eq_nil in Heq. destruct Heq as [-> _]. exact Hs.
  - unfold session_actions in Heq. simpl in Heq.
    apply app_eq_app in Heq. destruct Heq as [l [[H1 H2] | [H1 H2]]].
    + apply (step_actions_prefix env st s pre l Hs H1).
    + subst pre. rewrite dispatch_all_app.
      apply (IH _ l post).
      * apply (step_actions_prefix env st s _ [] Hs).
        rewrite app_nil_r. reflexivity.
      * exact H2.
Qed.

(** X4. When the operations are run one after the other, each thunk to its
    end before the next action, with [clearError] and [logout] anywhere
    between them and whatever the network answers to each call (the same
    request may fail and later succeed), then from the initial state on, after
    every single action, the error is [null] unless the status is
    ['failed']. *)
Theorem sequential_session_invariant env (steps : list user_step) (k : nat) :
  let s := dispatch_all initialState (firstn k (session_actions env steps)) in
  error s <> VNull -> status s = Failed.
Proof.
  intros s. subst s.
  apply (session_prefix env steps initialState
           (firstn k (session_actions env steps))
           (skipn k (session_actions env steps))).
  - exact settled_invariant_initial.
  - symmetry. apply firstn_skipn.
Qed.

Lemma sequential_session_invariant_witness :
  status (dispatch_all initialState
            (firstn 2 (session_actions None
                         [StepCall (fun _ => Failure "Network Error" None)
                            (CallAuthenticateUser (VObj [("email", VStr "a@b.com")]));
                          StepClearError;
                          StepCall (fun _ => Response 200 (VObj [("id", VNum 1)]))
                            (CallAuthenticateUser (VObj [("email", VStr "a@b.com")]))])))
  = Failed.
Proof.
  apply (sequential_session_invariant None
           [StepCall (fun _ => Failure "Network Error" None)
              (CallAuthenticateUser (VObj [("email", VStr "a@b.com")]));
            StepClearError;
            StepCall (fun _ => Response 200 (VObj [("id", VNum 1)]))
              (CallAuthenticateUser (VObj [("email", VStr "a@b.com")]))] 2).
  simpl. discriminate.
Defined.

(** ** What keeps the user *)

Lemma reducer_keeps_user (s : state) (a : action) :
  writes_user a = false -> user (reducer s a) = user s.
Proof.
  destruct a as [t p m]. unfold writes_user. simpl.
  destruct t as [ | | op | op | op | other]; try discriminate; intros H.
  - reflexivity.
  - rewrite reducer_pending. reflexivity.
  - rewrite reducer_fulfilled. destruct op; try discriminate H. reflexivity.
  - rewrite reducer_rejected. reflexivity.
  - reflexivity.
Qed.

(** X5. The user in the store changes only by [logout] or by a [fulfilled]
    action of an operation that stores its payload: through any sequence of
    other actions ([pending], [rejected], [clearError], the [fulfilled] of
    initiatePasswordReset, actions of other slices) the user stays as it
    was. *)
Theorem user_kept (acts : list action) (s : state) :
  Forall (fun a => writes_user a = false) acts ->
  user (dispatch_all s acts) = user s.
Proof.
  revert s. induction acts as [ | a acts IH]; intros s H.
  - reflexivity.
  - inversion H as [ | a' acts' Ha Hacts]; subst.
    simpl. rewrite (IH _ Hacts). apply reducer_keeps_user. exact Ha.
Qed.

Lemma user_kept_witness :
  user (dispatch_all
          {| user := VObj [("id", VNum 1)]; status := Succeeded; error := VNull |}
          [pending UpdateUser; rejected UpdateUser (VStr "denied") (VStr "Rejected");
           clearError_action; fulfilled InitiatePasswordReset (VStr "sent")])
  = VObj [("id", VNum 1)].
Proof.
  apply (user_kept
           [pending UpdateUser; rejected UpdateUser (VStr "denied") (VStr "Rejected");
            clearError_action; fulfilled InitiatePasswordReset (VStr "sent")]
           {| user := VObj [("id", VNum 1)]; status := Succeeded; error := VNull |}).
  repeat constructor.
Defined.

(** ** The forms *)

Lemma get_set_field (name name' : string) (v : value) (prev : form_data) :
  get_field name' (set_field name v prev)
  = if String.eqb name name' then v else get_field name' prev.
Proof.
  induction prev as [ | [k x] rest IH]; simpl.
  - reflexivity.
  - destruct (String.eqb_spec k name) as [-> | Hk]; simpl.
    + destruct (String.eqb name name'); reflexivity.
    + rewrite IH. destruct (String.eqb_spec k name') as [-> | Hk'].
      * destruct (String.eqb_spec name name') as [E | _]; [congruence | reflexivity].
      * reflexivity.
Qed.

(** X6. After a change event on the input [name], the form holds the typed
    text under [name] and, under every other name, what it held before. *)
Theorem handleChange_get (prev : form_data) (name text name' : string) :
  get_field name' (handleChange prev name text)
  = if String.eqb name name' then VStr text else get_field name' prev.
Proof. unfold handleChange. apply get_set_field. Qed.

Lemma set_field_keys_present (name : string) (v : value) (prev : form_data) :
  In name (keys prev) -> keys (set_field name v prev) = keys prev.
Proof.
  induction prev as [ | [k x] rest IH]; simpl.
  - intros [].
  - intros [-> | Hin].
    + rewrite String.eqb_refl. reflexivity.
    + destruct (String.eqb k name); simpl.
      * reflexivity.
      * f_equal. apply IH. exact Hin.
Qed.

(** X7. Change events on inputs whose names are properties of the form data
    never add, drop or reorder a property: after any series of them the form
    data has the properties it started with. *)
Theorem typed_keeps_keys (initial : form_data) (events : list (string * string)) :
  Forall (fun e => In (fst e) (keys initial)) events ->
  keys (typed initial events) = keys initial.
Proof.
  unfold typed.
  assert (G : forall prev, keys prev = keys initial ->
                Forall (fun e => In (fst e) (keys initial)) events ->
                keys (fold_left (fun prev e => handleChange prev (fst e) (snd e))
                        events prev) = keys initial).
  { induction events as [ | e events IH]; intros prev Hprev H.
    - exact Hprev.
    - inversion H as [ | e' events' He Hevents]; subst. simpl.
      apply IH; [ | exact Hevents].
      unfold handleChange. rewrite set_field_keys_present; [exact Hprev | ].
      rewrite Hprev. exact He. }
  apply G. reflexivity.
Qed.

Lemma typed_keeps_keys_witness :
  keys (typed RegisterUserForm_initial
          [("email", "a@b.com"); ("name", "Ann"); ("email", "ann@b.com")])
  = ["email"; "name"; "password"].
Proof.
  apply (typed_keeps_keys RegisterUserForm_initial
           [("email", "a@b.com"); ("name", "Ann"); ("email", "ann@b.com")]).
  repeat (apply Forall_cons; [simpl; auto | ]). apply Forall_nil.
Defined.

(** ** The alert *)

Lemma alert_status error_name number_to_string (v : view) (s : state) :
  alert error_name number_to_string v s
  = match status s with
    | Idle => Renders None
    | Loading =>
        Renders (Some {| className := "alert alert-info"; role := "alert";
                         text := loading_message v |})
    | Succeeded =>
        Renders (Some {| className := "alert alert-success"; role := "alert";
                         text := succeeded_message v |})
    | Failed =>
        match to_string error_name number_to_string (error s) with
        | Text printed_error =>
            Renders (Some {| className := "alert alert-danger"; role := "alert";
                             text := "Error: " ++ printed_error |})
        | TypeError => RenderThrows
        end
    end.
Proof.
  unfold alert, alert_of. destruct (status s); simpl.
  - reflexivity.
  - destruct v; reflexivity.
  - destruct v; reflexivity.
  - destruct (to_string error_name number_to_string (error s)); reflexivity.
Qed.


(** ** A form submitted *)

Lemma handleSubmit_actions env axios (sub : submission) :
  handleSubmit env axios sub = clearError_action :: thunk env axios (call_of sub).
Proof. destruct sub; reflexivity. Qed.

Lemma submitted env axios (sub : submission) (s : state) :
  dispatch_all s (handleSubmit env axios sub)
  = dispatch_all {| user := user s; status := status s; error := VNull |}
      (thunk env axios (call_of sub)).
Proof. rewrite handleSubmit_actions. reflexivity. Qed.

Lemma submit_alert error_name number_to_string env axios (sub : submission) (s : state) :
  alert error_name number_to_string (view_of sub)
    (dispatch_all s (handleSubmit env axios sub))
  = match axios (request_of env (call_of sub)) with
    | Response _ _ =>
        Renders (Some {| className := "alert alert-success"; role := "alert";
                         text := succeeded_message (view_of sub) |})
    | Failure message response =>
        match to_string error_name number_to_string
                (js_or (response_data (caught message response))
                       (caught message response)) with
        | Text printed_error =>
            Renders (Some {| className := "alert alert-danger"; role := "alert";
                             text := "Error: " ++ printed_error |})
        | TypeError => RenderThrows
        end
    end.
Proof.
  rewrite submitted, run_thunk, alert_status.
  destruct (axios (request_of env (call_of sub))) as [code data | message [[code body] | ]];
    reflexivity.
Qed.

(** X10. A form submitted from any state of the store, with nothing else
    dispatched meanwhile: as soon as it is submitted the view shows its loading
    text; once the call has settled it shows the success text when the request
    got a response, and otherwise ["Error: "] followed by what the client threw
    (the body of the failure response when truthy, else the error object)
    converted to a string, rendering throwing when that conversion does.  An
    error left in the store by an earlier failure is not shown. *)
Theorem submit_alert_by_outcome error_name number_to_string env axios
  (sub : submission) (s : state) :
  alert error_name number_to_string (view_of sub)
    (dispatch_all s (firstn 2 (handleSubmit env axios sub)))
  = Renders (Some {| className := "alert alert-info"; role := "alert";
                     text := loading_message (view_of sub) |})
  /\ alert error_name number_to_string (view_of sub)
       (dispatch_all s (handleSubmit env axios sub))
     = match axios (request_of env (call_of sub)) with
       | Response _ _ =>
           Renders (Some {| className := "alert alert-success"; role := "alert";
                            text := succeeded_message (view_of sub) |})
       | Failure message response =>
           match to_string error_name number_to_string
                   (js_or (response_data (caught message response))
                          (caught message response)) with
           | Text printed_error =>
               Renders (Some {| className := "alert alert-danger"; role := "alert";
                                text := "Error: " ++ printed_error |})
           | TypeError => RenderThrows
           end
       end.
Proof.
  split.
  - rewrite handleSubmit_actions, thunk_actions. unfold createAsyncThunk. simpl.
    unfold pending. rewrite reducer_pending, alert_status. reflexivity.
  - apply submit_alert.
Qed.

(** X11. When the server answers a submitted form with a failure whose body is
    an object, the view shows ["Error: [object Object]"] whatever the
    properties of that object, so that no message of the server reaches the
    alert; unless the object has an own property [toString], in which case
    rendering the view throws. *)
Theorem object_error_alert error_name number_to_string env axios
  (sub : submission) (s : state)
  (message : string) (code : Z) (fields : list (string * value)) :
  axios (request_of env (call_of sub)) = Failure message (Some (code, VObj fields)) ->
  alert error_name number_to_string (view_of sub)
    (dispatch_all s (handleSubmit env axios sub))
  = if has_own "toString" fields then RenderThrows
    else Renders (Some {| className := "alert alert-danger"; role := "alert";
                          text := "Error: [object Object]" |}).
Proof.
  intros H. rewrite submit_alert, H. simpl.
  destruct (has_own "toString" fields); reflexivity.
Qed.

Lemma object_error_alert_witness :
  alert "AxiosError" id_string LoginForm
    (dispatch_all initialState
       (LoginForm_handleSubmit None
          (fun _ => Failure "Request failed with status code 401"
                      (Some (401, VObj [("message", VStr "invalid credentials")])))
          [("email", VStr "a@b.com"); ("password", VStr "pw")]))
  = Renders (Some {| className := "alert alert-danger"; role := "alert";
                     text := "Error: [object Object]" |}).
Proof.
  apply (object_error_alert "AxiosError" id_string None
           (fun _ => Failure "Request failed with status code 401"
                       (Some (401, VObj [("message", VStr "invalid credentials")])))
           (SubmitLoginForm [("email", VStr "a@b.com"); ("password", VStr "pw")])
           initialState
           "Request failed with status code 401" 401
           [("message", VStr "invalid credentials")]).
  reflexivity.
Defined.

(** ** The states of the store *)

Lemma idle_is_initial_step (s : state) (a : action) :
  (status s = Idle -> s = initialState) ->
  status (reducer s a) = Idle -> reducer s a = initialState.
Proof.
  intros Hs. destruct a as [t p m]. destruct t as [ | | op | op | op | other].
  - rewrite reducer_clearError. simpl. intros H. rewrite (Hs H). reflexivity.
  - intros _. reflexivity.
  - rewrite reducer_pending. discriminate.
  - rewrite reducer_fulfilled. discriminate.
  - rewrite reducer_rejected. discriminate.
  - exact Hs.
Qed.

Lemma idle_is_initial (acts : list action) (s : state) :
  (status s = Idle -> s = initialState) ->
  status (dispatch_all s acts) = Idle -> dispatch_all s acts = initialState.
Proof.
  revert s. induction acts as [ | a acts IH]; intros s Hs.
  - exact Hs.
  - simpl. apply IH. apply idle_is_initial_step. exact Hs.
Qed.

(** X12. The states the store can reach from the initial one are exactly the
    initial state itself, the ['loading'] states with no error, and all
    ['succeeded'] and ['failed'] states: status ['idle'] comes only with no
    user and no error, status ['loading'] only with no error, and nothing else
    is excluded. *)
Theorem reachable_iff (s : state) :
  reachable s
  <-> (status s = Idle -> s = initialState)
      /\ (status s = Loading -> error s = VNull).
Proof.
  split.
  - intros Hr. split.
    + destruct Hr as [acts ->]. apply idle_is_initial. intros _. reflexivity.
    + intros H. apply (reachable_quiet s Hr). right. exact H.
  - intros [Hidle Hload]. destruct s as [u st e]. destruct st; simpl in *.
    + rewrite (Hidle eq_refl). exists []. reflexivity.
    + rewrite (Hload eq_refl).
      exists [fulfilled Register u; pending Register]. reflexivity.
    + exists [rejected Register VUndefined e; fulfilled Register u]. reflexivity.
    + exists [fulfilled Register u; rejected Register VUndefined e]. reflexivity.
Qed.

(** ** Two operations in flight *)

(** X13. Two operations triggered one after the other, the first settling
    before the second, with nothing else dispatched: the status is that of the
    second outcome; the user is the payload of the last operation that was
    fulfilled and stores its payload, the user before when there is none; the
    error is the one of the second outcome when it is a failure, else the one
    of the first outcome when that is a failure, else [null]. *)
Theorem two_in_flight (opA opB : operation) (rA rB : creator_result) (s : state) :
  let s' := dispatch_all s [pending opA; pending opB; settled opA rA; settled opB rB] in
  let stored (op : operation) (p before : value) :=
    match op with InitiatePasswordReset => before | _ => p end in
  let user_after_A :=
    match rA with Return p => stored opA p (user s) | RejectWithValue _ => user s end in
  status s' = match rB with Return _ => Succeeded | RejectWithValue _ => Failed end
  /\ user s' = match rB with
               | Return p => stored opB p user_after_A
               | RejectWithValue _ => user_after_A
               end
  /\ error s' = match rB, rA with
                | RejectWithValue e, _ => js_or e rejectedWithValue_message
                | Return _, RejectWithValue e => js_or e rejectedWithValue_message
                | Return _, Return _ => VNull
                end.
Proof.
  unfold dispatch_all, pending. simpl. rewrite !reducer_pending.
  destruct rA as [pA | eA], rB as [pB | eB]; simpl;
    unfold fulfilled, rejected;
    rewrite ?reducer_fulfilled, ?reducer_rejected, ?reducer_fulfilled; simpl;
    repeat split.
Qed.
